(** * DXHeatingCoil: defrost-aware heating performance of a DX heating coil

    A shallow embedding of [DXHeatingCoil.py] and the properties its
    specification states about it.

    Numbers.  The script computes with Python floats.  The specification
    reads every formula over the real numbers ("total functions over the
    reals", "finite real numbers"), and so does this development: a number
    is an exact rational [Q], which contains every finite float, the
    arithmetic is exact, and rounding, infinities and NaN are outside the
    model.  Equality of numbers is [==] ([Qeq]) unless both sides are
    built by the same operations.

    Where the floats of the script depart from the exact model, a
    statement keeps to inputs on which both agree: strict order is stated
    between inputs a thousandth apart and with room to spare, not between
    neighbouring floats, which the script may map to one value; positivity
    of the on-demand multipliers is stated for differentials up to 1, since
    the script rounds [1 + 0.01446 / dw] to 1 from about 1.4e14 on (the
    last section replays this in binary64); and temperatures are kept
    within a hundred degrees, far from where [Tdb ** 3] overflows.

    Exceptions.  Python's [/] raises [ZeroDivisionError] on a zero divisor
    and psychrolib raises on inconsistent inputs; both are modelled by the
    [result] type below, threaded through the code with [<-  ;;].

    psychrolib is an external package: its two functions are the methods
    of the class [Psychrolib], and every statement holds for any instance. *)

From Stdlib Require Import QArith Qminmax Lqa String.
From Stdlib Require Import PrimFloat.

Open Scope Q_scope.

(** ** Exceptions and the error monad *)

Inductive exn : Type :=
| ZeroDivisionError   (* raised by a [/] of the script itself *)
| PsychrolibError.    (* anything raised inside a psychrolib call *)

Inductive result (A : Type) : Type :=
| Ok (a : A)
| Raise (e : exn).

Arguments Ok {A} a.
Arguments Raise {A} e.

Definition bind {A B : Type} (m : result A) (k : A -> result B) : result B :=
  match m with
  | Ok a => k a
  | Raise e => Raise e
  end.

Notation "x <- m ;; k" := (bind m (fun x => k))
  (at level 61, m at next level, right associativity).

(** Python's [x / y] on floats. *)
Definition truediv (x y : Q) : result Q :=
  if Qeq_bool y 0 then Raise ZeroDivisionError else Ok (x / y).

Infix "/?" := truediv (at level 40, left associativity).

(** Python's [max(a, b)] and [min(a, b)]: the first argument is kept
    unless the second is strictly greater (smaller). *)
Definition py_max (a b : Q) : Q := if Qlt_le_dec a b then b else a.
Definition py_min (a b : Q) : Q := if Qlt_le_dec b a then b else a.

(** ** The psychrometric provider *)

Class Psychrolib : Type := {
  GetHumRatioFromTWetBulb : Q -> Q -> Q -> option Q;
  GetSatHumRatio : Q -> Q -> option Q
}.

(** A psychrolib call inside the script: [None] is a raised exception. *)
Definition call {A : Type} (r : option A) : result A :=
  match r with
  | Some a => Ok a
  | None => Raise PsychrolibError
  end.

(** ** Correction curves *)

Definition TotCapTempModFac (Tdb : Q) : Q :=
  let '(a, b, c, d) := (0.758746, 0.027626, 0.000148716, 0.0000034992) in
  a + b * Tdb + c * Tdb ^ 2 + d * Tdb ^ 3.

Definition TotCapFlowModFac (FF : Q) : Q :=
  let '(a, b, c, d) := (0.84, 0.16, 0.0, 0.0) in
  a + b * FF + c * FF ^ 2 + d * FF ^ 3.

Definition EERTempModFac (Tdb : Q) : Q :=
  let '(a, b, c, d) := (1.19248, -0.0300438, 0.00103745, -0.000023328) in
  a + b * Tdb + c * Tdb ^ 2 + d * Tdb ^ 3.

Definition EERFlowModFac (FF : Q) : Q :=
  let '(a, b, c, d) := (1.3824, -0.4336, 0.0512, 0.0) in
  a + b * FF + c * FF ^ 2 + d * FF ^ 3.

Definition PLF_curve (PLR : Q) : Q :=
  0.85 + 0.15 * PLR.

Definition DefrostEIRTempModFac (Twbi Tdb : Q) : Q :=
  let '(a, b, c, d, e, f) := (1, 0, 0, 0, 0, 0) in
  a + b * Twbi + c * Twbi ^ 2 + d * Tdb + e * Tdb ^ 2 + f * Twbi * Tdb.

(** ** The defrost model *)

(** The frost-driving humidity differential, the local [OutdoorCoildw] of
    [DefrostCalc], as a function of the two humidity ratios. *)
Definition OutdoorCoildw (OutdoorHumRat SatHumRat : Q) : Q :=
  py_max 1e-6 (OutdoorHumRat - SatHumRat).

Section DefrostModel.

Context {psy : Psychrolib}.

(** [DemandDefrost] is compared with the string ["OnDemand"]; every other
    string takes the timed branch.  [tfrac_defrost] defaults to [None]. *)
Definition DefrostCalc (Tdbo Twbo : Q) (DemandDefrost : string)
    (tfrac_defrost : option Q) : result (Q * Q * Q) :=
  let OutdoorCoilT := 0.82 * Tdbo - 8.589 in
  let OutdoorPress := 98600 in
  OutdoorHumRat <- call (GetHumRatioFromTWetBulb Tdbo Twbo OutdoorPress) ;;
  SatHumRat <- call (GetSatHumRatio OutdoorCoilT OutdoorPress) ;;
  let OutdoorCoildw := OutdoorCoildw OutdoorHumRat SatHumRat in
  if (DemandDefrost =? "OnDemand")%string then
    q <- 0.01446 /? OutdoorCoildw ;;
    tfrac_defrost <- 1 /? (1 + q) ;;
    let Heating_Capacity_Multiplier := 0.875 * (1 - tfrac_defrost) in
    let Input_Power_Multiplier := 0.954 * (1 - tfrac_defrost) in
    Ok (Heating_Capacity_Multiplier, Input_Power_Multiplier, tfrac_defrost)
  else
    let tfrac_defrost :=
      match tfrac_defrost with
      | None => 0.058333
      | Some t => t
      end in
    let Heating_Capacity_Multiplier := 0.909 - 107.33 * OutdoorCoildw in
    let Input_Power_Multiplier := 0.9 - 36.45 * OutdoorCoildw in
    Ok (Heating_Capacity_Multiplier, Input_Power_Multiplier, tfrac_defrost).

End DefrostModel.

(** ** The performance evaluator *)

(** The module-level parameters of the script. *)
Record Params : Type := {
  OAT : Q;
  Outdoor_WBT : Q;
  Indoor_WBT : Q;
  Delivered_Load : Q;
  OAT_max_defrost : Q;
  Q_total_rated : Q;
  COP_rated : Q
}.

(** The values the script assigns to them. *)
Definition reference : Params := {|
  OAT := 2.7;
  Outdoor_WBT := 1.332824959;
  Indoor_WBT := 12.1110695;
  Delivered_Load := 175901.2156;
  OAT_max_defrost := 5;
  Q_total_rated := 14333.9065;
  COP_rated := 3.8377982946518
|}.

(** The module-level variables bound when the conditional has run.
    [Heating_capacity_multiplier] is bound by the else branch only and
    [Q_defrost] by the then branch only. *)
Record Vars : Type := {
  Input_Power_Multiplier : Q;
  Heating_capacity_multiplier : option Q;
  Q_total : Q;
  Q_defrost : option Q;
  PLR : Q;
  PLF : Q;
  RTF : Q;
  P_defrost : Q;
  P_heating : Q
}.

Section PerformanceEvaluator.

Context {psy : Psychrolib}.

(** The then branch: [OAT <= OAT_max_defrost]. *)
Definition defrost_active (p : Params) : result Vars :=
  let OAT := OAT p in
  let Outdoor_WBT := Outdoor_WBT p in
  let Q_total_rated := Q_total_rated p in
  r1 <- DefrostCalc OAT Outdoor_WBT "OnDemand" None ;;
  let Input_Power_Multiplier := snd (fst r1) in
  r2 <- DefrostCalc OAT Outdoor_WBT "OnDemand" None ;;
  let Q_total :=
    Q_total_rated * TotCapTempModFac OAT * TotCapFlowModFac 1
    * fst (fst r2) in
  r3 <- DefrostCalc OAT Outdoor_WBT "OnDemand" None ;;
  k <- Q_total_rated /? 1.01667 ;;
  let Q_defrost := 0.01 * snd r3 * (7.222 - OAT) * k in
  PLR <- Delivered_Load p /? (Q_total * 60) ;;
  dq <- Q_defrost /? Q_total ;;
  let PLR := py_min 1.0 (PLR + dq) in
  let PLF := PLF_curve PLR in
  x <- PLR /? PLF ;;
  let RTF := py_min 1 x in
  k' <- Q_total_rated /? 1.01667 ;;
  r4 <- DefrostCalc OAT Outdoor_WBT "OnDemand" None ;;
  let P_defrost :=
    DefrostEIRTempModFac (Indoor_WBT p) OAT * k' * snd r4 * RTF in
  i <- 1 /? COP_rated p ;;
  r5 <- DefrostCalc OAT Outdoor_WBT "OnDemand" None ;;
  let P_heating :=
    i * Q_total * EERTempModFac OAT * EERFlowModFac 1
    * snd (fst r5) * RTF in
  Ok {| Input_Power_Multiplier := Input_Power_Multiplier;
        Heating_capacity_multiplier := None;
        Q_total := Q_total;
        Q_defrost := Some Q_defrost;
        PLR := PLR;
        PLF := PLF;
        RTF := RTF;
        P_defrost := P_defrost;
        P_heating := P_heating |}.

(** The else branch: no defrost operation. *)
Definition defrost_inactive (p : Params) : result Vars :=
  let OAT := OAT p in
  let Input_Power_Multiplier := 1 in
  let Heating_capacity_multiplier := 1 in
  let Q_total :=
    Q_total_rated p * TotCapTempModFac OAT * TotCapFlowModFac 1
    * Heating_capacity_multiplier in
  PLR <- Delivered_Load p /? (Q_total * 60) ;;
  let PLF := PLF_curve PLR in
  x <- PLR /? PLF ;;
  let RTF := py_min 1 x in
  i <- 1 /? COP_rated p ;;
  let P_heating :=
    i * Q_total * EERTempModFac OAT * EERFlowModFac 1
    * Input_Power_Multiplier * RTF in
  let P_defrost := 0 in
  Ok {| Input_Power_Multiplier := Input_Power_Multiplier;
        Heating_capacity_multiplier := Some Heating_capacity_multiplier;
        Q_total := Q_total;
        Q_defrost := None;
        PLR := PLR;
        PLF := PLF;
        RTF := RTF;
        P_defrost := P_defrost;
        P_heating := P_heating |}.

(** The conditional of the script. *)
Definition evaluate (p : Params) : result Vars :=
  if Qle_bool (OAT p) (OAT_max_defrost p)
  then defrost_active p
  else defrost_inactive p.

(** The two numbers the script prints. *)
Definition report (p : Params) : result (Q * Q) :=
  v <- evaluate p ;;
  Ok (P_heating v * 60, P_defrost v * 60).

End PerformanceEvaluator.

(** ** A tabulated provider

    An instance of [Psychrolib] for running the model: it rejects a wet
    bulb above the dry bulb, as psychrolib does, and otherwise answers
    with two fixed humidity ratios. *)
Definition tabulated (w_air w_sat : Q) : Psychrolib := {|
  GetHumRatioFromTWetBulb := fun TDryBulb TWetBulb _ =>
    if Qlt_le_dec TDryBulb TWetBulb then None else Some w_air;
  GetSatHumRatio := fun _ _ => Some w_sat
|}.

(** Humidity ratios close to those of the script's operating point. *)
Definition winter_air : Psychrolib := tabulated 0.0037186 0.0022599.

(** Humidity ratios of warm, saturated air over a coil near 12 C. *)
Definition humid_air : Psychrolib := tabulated 0.0207 0.0089.

(** Air drier than saturation at the coil: no frost is driven. *)
Definition dry_air : Psychrolib := tabulated 0.0015 0.0022599.

(** A provider whose saturation lookup raises. *)
Definition broken_psychrolib : Psychrolib := {|
  GetHumRatioFromTWetBulb := fun _ _ _ => Some 0.0037186;
  GetSatHumRatio := fun _ _ => None
|}.

(** ** Vocabulary of the specification *)

(** The on-demand time fraction as a function of the differential. *)
Definition tfrac_OnDemand (dw : Q) : Q := 1 / (1 + 0.01446 / dw).


(** Operating points next to the script's own. *)
Definition with_OAT_and_load (t load : Q) : Params := {|
  OAT := t;
  Outdoor_WBT := Outdoor_WBT reference;
  Indoor_WBT := Indoor_WBT reference;
  Delivered_Load := load;
  OAT_max_defrost := OAT_max_defrost reference;
  Q_total_rated := Q_total_rated reference;
  COP_rated := COP_rated reference
|}.

(** The same parameters with another indoor wet bulb. *)
Definition set_Indoor_WBT (p : Params) (t : Q) : Params := {|
  OAT := OAT p;
  Outdoor_WBT := Outdoor_WBT p;
  Indoor_WBT := t;
  Delivered_Load := Delivered_Load p;
  OAT_max_defrost := OAT_max_defrost p;
  Q_total_rated := Q_total_rated p;
  COP_rated := COP_rated p
|}.

(** The same parameters with other wet bulbs, outdoor and indoor. *)
Definition set_wet_bulbs (p : Params) (outdoor indoor : Q) : Params := {|
  OAT := OAT p;
  Outdoor_WBT := outdoor;
  Indoor_WBT := indoor;
  Delivered_Load := Delivered_Load p;
  OAT_max_defrost := OAT_max_defrost p;
  Q_total_rated := Q_total_rated p;
  COP_rated := COP_rated p
|}.

(** Outdoor air exactly at the maximum defrost temperature. *)
Definition at_threshold : Params := with_OAT_and_load 5 175901.2156.

(** Outdoor air above it, same load. *)
Definition mild_day : Params := with_OAT_and_load 10 175901.2156.

(** Outdoor air above it, and a load beyond what the coil delivers. *)
Definition overloaded : Params := with_OAT_and_load 10 1000000.

(** Outdoor air above it, and no rated COP. *)
Definition zero_COP : Params := {|
  OAT := 10;
  Outdoor_WBT := Outdoor_WBT reference;
  Indoor_WBT := Indoor_WBT reference;
  Delivered_Load := Delivered_Load reference;
  OAT_max_defrost := OAT_max_defrost reference;
  Q_total_rated := Q_total_rated reference;
  COP_rated := 0
|}.

(** The envelope in which the script's numbers make physical sense. *)
Definition in_envelope (p : Params) : Prop :=
  (-25 <= OAT p /\ OAT p <= 40)
  /\ OAT_max_defrost p <= 7.222
  /\ 0 <= Delivered_Load p
  /\ 0 < Q_total_rated p
  /\ 0 < COP_rated p.

(** The bounds a returned state keeps inside the envelope. *)
Definition sane (p : Params) (v : Vars) : Prop :=
  0 < Q_total v
  /\ 0 <= PLR v
  /\ 0.85 <= PLF v
  /\ (0 <= RTF v /\ RTF v <= 1)
  /\ (0 <= P_defrost v /\ P_defrost v <= Q_total_rated p / 1.01667)
  /\ 0 <= P_heating v.

(** ** The on-demand arithmetic in binary64

    Lines 53 to 55 of the script as the interpreter computes them, on
    IEEE 754 doubles with round to nearest, as a function of the
    differential.  The decimal constants denote the nearest doubles, as
    in Python. *)

#[local] Set Warnings "-inexact-float".

Definition DefrostCalc_OnDemand_binary64 (OutdoorCoildw : PrimFloat.float) :
    PrimFloat.float * PrimFloat.float * PrimFloat.float :=
  let tfrac_defrost := (1 / (1 + (0.01446 / OutdoorCoildw)))%float in
  let Heating_Capacity_Multiplier := (0.875 * (1 - tfrac_defrost))%float in
  let Input_Power_Multiplier := (0.954 * (1 - tfrac_defrost))%float in
  (Heating_Capacity_Multiplier, Input_Power_Multiplier, tfrac_defrost).

(** ** Proof steps for runs in the error monad *)

(** One step of a run that returned: the bound computation returned. *)
Ltac step_bind H :=
  match type of H with
  | bind ?m _ = Ok _ =>
      let E := fresh "E" in
      destruct m eqn:E; cbn [bind] in H; [| discriminate H]
  end.

(** All steps, then the variables the run has bound. *)
Ltac run_inv H :=
  cbv zeta in H; repeat step_bind H;
  injection H as <-;
  cbn [Input_Power_Multiplier Heating_capacity_multiplier Q_total Q_defrost
       PLR PLF RTF P_defrost P_heating].

(** A product of factors that are positive by assumption or by value. *)
Ltac Qnonneg :=
  repeat apply Qmult_le_0_compat;
  try assumption;
  try (apply Qlt_le_weak; assumption);
  try (apply Qlt_le_weak, Qinv_lt_0_compat; assumption);
  try (vm_compute; discriminate).

(** * Properties *)

(** ** Arithmetic of the model *)

Lemma floor_value : 1e-6 == 0.000001.
Proof. reflexivity. Qed.

Lemma truediv_ok (x y : Q) : ~ y == 0 -> x /? y = Ok (x / y).
Proof.
  intros Hy. unfold truediv.
  destruct (Qeq_bool y 0) eqn:E; [| reflexivity].
  apply Qeq_bool_iff in E. contradiction.
Qed.

Lemma truediv_zero (x y : Q) : y == 0 -> x /? y = Raise ZeroDivisionError.
Proof.
  intros Hy. unfold truediv.
  apply Qeq_bool_iff in Hy. now rewrite Hy.
Qed.

Lemma truediv_inv (x y z : Q) : x /? y = Ok z -> ~ y == 0 /\ z = x / y.
Proof.
  unfold truediv. destruct (Qeq_bool y 0) eqn:E; [discriminate |].
  intros [= <-]. split; [| reflexivity].
  intros Hy. apply Qeq_bool_iff in Hy. congruence.
Qed.

Lemma py_max_l (a b : Q) : a <= py_max a b.
Proof. unfold py_max. destruct (Qlt_le_dec a b); lra. Qed.

Lemma py_max_r (a b : Q) : b <= py_max a b.
Proof. unfold py_max. destruct (Qlt_le_dec a b); lra. Qed.

Lemma py_max_cases (a b : Q) :
  (a < b /\ py_max a b = b) \/ (b <= a /\ py_max a b = a).
Proof. unfold py_max. destruct (Qlt_le_dec a b); auto. Qed.

Lemma py_min_l (a b : Q) : py_min a b <= a.
Proof. unfold py_min. destruct (Qlt_le_dec b a); lra. Qed.

Lemma py_min_r (a b : Q) : py_min a b <= b.
Proof. unfold py_min. destruct (Qlt_le_dec b a); lra. Qed.

Lemma py_min_glb (a b c : Q) : c <= a -> c <= b -> c <= py_min a b.
Proof. unfold py_min. destruct (Qlt_le_dec b a); auto. Qed.

Lemma Qdiv_pos (x y : Q) : 0 < x -> 0 < y -> 0 < x / y.
Proof.
  intros Hx Hy. unfold Qdiv.
  apply Qmult_lt_0_compat; [assumption |].
  now apply Qinv_lt_0_compat.
Qed.

Lemma Qdiv_nonneg (x y : Q) : 0 <= x -> 0 < y -> 0 <= x / y.
Proof.
  intros Hx Hy. unfold Qdiv.
  apply Qmult_le_0_compat; [assumption |].
  apply Qlt_le_weak. now apply Qinv_lt_0_compat.
Qed.

(** ** The humidity differential and the on-demand time fraction *)

Lemma OutdoorCoildw_floor (w ws : Q) : 1e-6 <= OutdoorCoildw w ws.
Proof. apply py_max_l. Qed.

Lemma OutdoorCoildw_pos (w ws : Q) : 0 < OutdoorCoildw w ws.
Proof.
  apply Qlt_le_trans with (y := 1e-6); [reflexivity |].
  apply OutdoorCoildw_floor.
Qed.

Lemma tfrac_OnDemand_denominator (dw : Q) : 0 < dw -> 1 < 1 + 0.01446 / dw.
Proof.
  intros Hdw.
  assert (0 < 0.01446 / dw) by (apply Qdiv_pos; [reflexivity | assumption]).
  lra.
Qed.

Lemma tfrac_OnDemand_range (dw : Q) :
  0 < dw -> 0 < tfrac_OnDemand dw /\ tfrac_OnDemand dw < 1.
Proof.
  intros Hdw. pose proof (tfrac_OnDemand_denominator dw Hdw) as Hd.
  unfold tfrac_OnDemand. set (d := 1 + 0.01446 / dw) in *.
  split.
  - apply Qdiv_pos; lra.
  - apply Qlt_shift_div_r; lra.
Qed.

Section DefrostProperties.

Context {psy : Psychrolib}.

(** What [DefrostCalc] computes once psychrolib has answered. *)
Lemma DefrostCalc_OnDemand (Tdbo Twbo : Q) (tf : option Q) (w ws : Q) :
  GetHumRatioFromTWetBulb Tdbo Twbo 98600 = Some w ->
  GetSatHumRatio (0.82 * Tdbo - 8.589) 98600 = Some ws ->
  let t := tfrac_OnDemand (OutdoorCoildw w ws) in
  DefrostCalc Tdbo Twbo "OnDemand" tf
  = Ok (0.875 * (1 - t), 0.954 * (1 - t), t).
Proof.
  intros Hw Hws t. unfold DefrostCalc. rewrite Hw, Hws. cbn [call bind].
  change ("OnDemand" =? "OnDemand")%string with true. cbv iota.
  pose proof (OutdoorCoildw_pos w ws) as Hdw.
  rewrite truediv_ok by lra. cbn [bind].
  pose proof (tfrac_OnDemand_denominator _ Hdw).
  rewrite truediv_ok by lra. reflexivity.
Qed.

Lemma DefrostCalc_Timed (Tdbo Twbo : Q) (s : string) (tf : option Q)
    (w ws : Q) :
  s <> "OnDemand"%string ->
  GetHumRatioFromTWetBulb Tdbo Twbo 98600 = Some w ->
  GetSatHumRatio (0.82 * Tdbo - 8.589) 98600 = Some ws ->
  DefrostCalc Tdbo Twbo s tf
  = Ok (0.909 - 107.33 * OutdoorCoildw w ws,
        0.9 - 36.45 * OutdoorCoildw w ws,
        match tf with None => 0.058333 | Some t => t end).
Proof.
  intros Hs Hw Hws. unfold DefrostCalc. rewrite Hw, Hws. cbn [call bind].
  apply String.eqb_neq in Hs. rewrite Hs. reflexivity.
Qed.

(** [DefrostCalc] raises exactly when psychrolib does. *)
Lemma DefrostCalc_raises (Tdbo Twbo : Q) (s : string) (tf : option Q)
    (e : exn) :
  DefrostCalc Tdbo Twbo s tf = Raise e ->
  e = PsychrolibError
  /\ (GetHumRatioFromTWetBulb Tdbo Twbo 98600 = None
      \/ GetSatHumRatio (0.82 * Tdbo - 8.589) 98600 = None).
Proof.
  destruct (GetHumRatioFromTWetBulb Tdbo Twbo 98600) as [w |] eqn:Hw.
  2:{ unfold DefrostCalc. rewrite Hw. cbn. intros [= <-]. auto. }
  destruct (GetSatHumRatio (0.82 * Tdbo - 8.589) 98600) as [ws |] eqn:Hws.
  2:{ unfold DefrostCalc. rewrite Hw, Hws. cbn. intros [= <-]. auto. }
  destruct (string_dec s "OnDemand") as [-> | Hs].
  - rewrite (DefrostCalc_OnDemand _ _ _ _ _ Hw Hws). discriminate.
  - rewrite (DefrostCalc_Timed _ _ _ _ _ _ Hs Hw Hws). discriminate.
Qed.

(** A psychrolib call that raises makes [DefrostCalc] raise. *)
Lemma DefrostCalc_psychrolib_raises (Tdbo Twbo : Q) (s : string)
    (tf : option Q) :
  GetHumRatioFromTWetBulb Tdbo Twbo 98600 = None
  \/ GetSatHumRatio (0.82 * Tdbo - 8.589) 98600 = None ->
  DefrostCalc Tdbo Twbo s tf = Raise PsychrolibError.
Proof.
  intros [Hw | Hws]; unfold DefrostCalc.
  - now rewrite Hw.
  - rewrite Hws.
    now destruct (GetHumRatioFromTWetBulb Tdbo Twbo 98600).
Qed.

End DefrostProperties.

(** ** Correction curves *)



(** C9: with its coefficients (1, 0, 0, 0, 0, 0) the defrost EIR
    temperature modifier is the constant 1, whatever the indoor wet bulb
    and the outdoor dry bulb. *)
Theorem DefrostEIRTempModFac_constant (Twbi Tdb : Q) :
  DefrostEIRTempModFac Twbi Tdb == 1.
Proof.
  unfold DefrostEIRTempModFac. cbv iota beta. ring.
Qed.

(** ** The defrost model *)

Section DefrostClaims.

Context {psy : Psychrolib}.

(** C1: called with "OnDemand", and psychrolib answering with the
    humidity ratios [w] and [ws], [DefrostCalc] returns the time fraction
    [t = 1 / (1 + 0.01446 / dw)], where [dw] is the floored differential
    [max(1e-6, w - ws)], with the capacity multiplier [0.875 * (1 - t)]
    and the power multiplier [0.954 * (1 - t)]. *)
Theorem DefrostCalc_OnDemand_formula (Tdbo Twbo : Q) (tf : option Q)
    (w ws : Q) :
  GetHumRatioFromTWetBulb Tdbo Twbo 98600 = Some w ->
  GetSatHumRatio (0.82 * Tdbo - 8.589) 98600 = Some ws ->
  let dw := py_max 1e-6 (w - ws) in
  let t := 1 / (1 + 0.01446 / dw) in
  DefrostCalc Tdbo Twbo "OnDemand" tf
  = Ok (0.875 * (1 - t), 0.954 * (1 - t), t).
Proof.
  intros Hw Hws dw t.
  exact (DefrostCalc_OnDemand Tdbo Twbo tf w ws Hw Hws).
Qed.

(** C5: the humidity differential is [max(1e-6, w - ws)], hence at least
    [1e-6] and positive; the division [0.01446 / dw] succeeds, and an
    on-demand call of [DefrostCalc] never raises [ZeroDivisionError]. *)
Theorem OutdoorCoildw_guards_division (w ws : Q) :
  OutdoorCoildw w ws == Qmax 1e-6 (w - ws)
  /\ 1e-6 <= OutdoorCoildw w ws
  /\ 0 < 1e-6
  /\ 0.01446 /? OutdoorCoildw w ws = Ok (0.01446 / OutdoorCoildw w ws)
  /\ forall (Tdbo Twbo : Q) (tf : option Q),
       DefrostCalc Tdbo Twbo "OnDemand" tf <> Raise ZeroDivisionError.
Proof.
  pose proof (OutdoorCoildw_pos w ws) as Hpos.
  repeat split.
  - unfold OutdoorCoildw.
    destruct (py_max_cases 1e-6 (w - ws)) as [[Hlt ->] | [Hle ->]].
    + symmetry. apply Q.max_r. now apply Qlt_le_weak.
    + symmetry. now apply Q.max_l.
  - apply OutdoorCoildw_floor.
  - apply truediv_ok. lra.
  - intros Tdbo Twbo tf Hraise.
    apply DefrostCalc_raises in Hraise as [[=] _].
Qed.

(** C6: called with "Timed" and no time fraction, [DefrostCalc] returns
    the default 0.058333 as its time fraction; called with a fraction [f]
    it returns exactly [f]. *)
Theorem DefrostCalc_Timed_fraction (Tdbo Twbo : Q) (w ws : Q) :
  GetHumRatioFromTWetBulb Tdbo Twbo 98600 = Some w ->
  GetSatHumRatio (0.82 * Tdbo - 8.589) 98600 = Some ws ->
  let dw := OutdoorCoildw w ws in
  DefrostCalc Tdbo Twbo "Timed" None
  = Ok (0.909 - 107.33 * dw, 0.9 - 36.45 * dw, 0.058333)
  /\ forall f : Q,
       DefrostCalc Tdbo Twbo "Timed" (Some f)
       = Ok (0.909 - 107.33 * dw, 0.9 - 36.45 * dw, f).
Proof.
  intros Hw Hws dw. split; [| intros f];
    now rewrite (DefrostCalc_Timed Tdbo Twbo "Timed" _ w ws) by
      (assumption || discriminate).
Qed.

(** C10: under "OnDemand" the result of [DefrostCalc] does not depend on
    the [tfrac_defrost] argument: two calls with the same temperatures
    return the same triple (or raise the same exception). *)
Theorem DefrostCalc_OnDemand_ignores_tfrac (Tdbo Twbo : Q)
    (tf1 tf2 : option Q) :
  DefrostCalc Tdbo Twbo "OnDemand" tf1 = DefrostCalc Tdbo Twbo "OnDemand" tf2.
Proof.
  unfold DefrostCalc.
  destruct (call (GetHumRatioFromTWetBulb Tdbo Twbo 98600)) as [w | e];
    [| reflexivity].
  destruct (call (GetSatHumRatio (0.82 * Tdbo - 8.589) 98600)) as [ws | e];
    reflexivity.
Qed.

End DefrostClaims.

(** The on-demand result at the script's operating point. *)
Lemma DefrostCalc_OnDemand_formula_witness :
  DefrostCalc (psy := winter_air) 2.7 1.332824959 "OnDemand" None
  = Ok (0.875 * (1 - 1 / (1 + 0.01446 / py_max 1e-6 (0.0037186 - 0.0022599))),
        0.954 * (1 - 1 / (1 + 0.01446 / py_max 1e-6 (0.0037186 - 0.0022599))),
        1 / (1 + 0.01446 / py_max 1e-6 (0.0037186 - 0.0022599))).
Proof.
  apply (DefrostCalc_OnDemand_formula (psy := winter_air)
           2.7 1.332824959 None 0.0037186 0.0022599);
    reflexivity.
Defined.

(** The timed result there, by default and with the fraction 0.033. *)
Lemma DefrostCalc_Timed_fraction_witness :
  DefrostCalc (psy := winter_air) 2.7 1.332824959 "Timed" None
  = Ok (0.909 - 107.33 * OutdoorCoildw 0.0037186 0.0022599,
        0.9 - 36.45 * OutdoorCoildw 0.0037186 0.0022599,
        0.058333)
  /\ DefrostCalc (psy := winter_air) 2.7 1.332824959 "Timed" (Some 0.033)
     = Ok (0.909 - 107.33 * OutdoorCoildw 0.0037186 0.0022599,
           0.9 - 36.45 * OutdoorCoildw 0.0037186 0.0022599,
           0.033).
Proof.
  destruct (DefrostCalc_Timed_fraction (psy := winter_air)
              2.7 1.332824959 0.0037186 0.0022599
              eq_refl eq_refl) as [Hdefault Hgiven].
  split; [exact Hdefault | exact (Hgiven 0.033)].
Defined.

(** ** Ranges of the defrost result *)


(** The timed multipliers are not clamped either: over humid air the
    linear fit drives the capacity multiplier below zero. *)
Example DefrostCalc_Timed_negative_capacity :
  exists cap pow tfrac : Q,
    DefrostCalc (psy := humid_air) 25 25 "Timed" None = Ok (cap, pow, tfrac)
    /\ cap < 0.
Proof.
  do 3 eexists. split; [reflexivity |].
  vm_compute. reflexivity.
Qed.

Section DefrostRanges.

Context {psy : Psychrolib}.


End DefrostRanges.


(** ** The performance evaluator *)

Lemma TotCapFlowModFac_rated : TotCapFlowModFac 1 == 1.
Proof. reflexivity. Qed.

Section EvaluatorProperties.

Context {psy : Psychrolib}.

Lemma evaluate_active (p : Params) :
  OAT p <= OAT_max_defrost p -> evaluate p = defrost_active p.
Proof.
  intros Hle. unfold evaluate.
  apply Qle_bool_iff in Hle. now rewrite Hle.
Qed.

Lemma evaluate_inactive (p : Params) :
  OAT_max_defrost p < OAT p -> evaluate p = defrost_inactive p.
Proof.
  intros Hlt. unfold evaluate.
  destruct (Qle_bool (OAT p) (OAT_max_defrost p)) eqn:E; [| reflexivity].
  apply Qle_bool_iff in E. lra.
Qed.

(** The then branch clamps the part-load ratio. *)
Lemma defrost_active_PLR_le_1 (p : Params) (v : Vars) :
  defrost_active p = Ok v -> PLR v <= 1.
Proof.
  intros H. unfold defrost_active in H. run_inv H.
  apply Qle_trans with (y := 1.0); [apply py_min_l | lra].
Qed.

(** The then branch binds the defrost load and leaves the lower-case
    capacity multiplier of the else branch unbound. *)
Lemma defrost_active_bindings (p : Params) (v : Vars) :
  defrost_active p = Ok v ->
  Heating_capacity_multiplier v = None /\ exists q, Q_defrost v = Some q.
Proof.
  intros H. unfold defrost_active in H. run_inv H.
  split; [reflexivity | eexists; reflexivity].
Qed.

(** What the else branch binds, whenever it returns. *)
Lemma defrost_inactive_bindings (p : Params) (v : Vars) :
  defrost_inactive p = Ok v ->
  P_defrost v = 0
  /\ Input_Power_Multiplier v = 1
  /\ Heating_capacity_multiplier v = Some 1
  /\ Q_defrost v = None
  /\ Q_total v
     = Q_total_rated p * TotCapTempModFac (OAT p) * TotCapFlowModFac 1 * 1
  /\ PLR v = Delivered_Load p / (Q_total v * 60)
  /\ PLF v = PLF_curve (PLR v)
  /\ RTF v = py_min 1 (PLR v / PLF v).
Proof.
  intros H. unfold defrost_inactive in H. run_inv H.
  apply truediv_inv in E as [_ ->]. apply truediv_inv in E0 as [_ ->].
  repeat split.
Qed.

(** The else branch returns unless one of its three divisions fails. *)
Lemma defrost_inactive_returns (p : Params) :
  let Qt := Q_total_rated p * TotCapTempModFac (OAT p) * TotCapFlowModFac 1 in
  ~ Qt == 0 ->
  ~ PLF_curve (Delivered_Load p / (Qt * 60)) == 0 ->
  ~ COP_rated p == 0 ->
  exists v, defrost_inactive p = Ok v.
Proof.
  intros Qt HQt HPLF HCOP. unfold defrost_inactive. cbv zeta. fold Qt.
  assert (H1 : Qt * 1 == Qt) by ring.
  rewrite truediv_ok.
  2:{ rewrite H1. intros H0. apply HQt.
      apply Qmult_integral in H0 as [H0 | H0]; [exact H0 | discriminate H0]. }
  cbn [bind]. rewrite truediv_ok.
  2:{ intros H0. apply HPLF. rewrite <- H0. unfold PLF_curve.
      now rewrite H1. }
  cbn [bind]. rewrite truediv_ok by exact HCOP.
  cbn [bind]. eexists. reflexivity.
Qed.

(** Both branches clamp the runtime fraction from above. *)
Lemma evaluate_RTF_le_1 (p : Params) (v : Vars) :
  evaluate p = Ok v -> RTF v <= 1.
Proof.
  unfold evaluate.
  destruct (Qle_bool (OAT p) (OAT_max_defrost p)); intros H.
  - unfold defrost_active in H. run_inv H. apply py_min_l.
  - unfold defrost_inactive in H. run_inv H. apply py_min_l.
Qed.

(** The runtime fraction is [min(1, PLR / PLF)] in both branches. *)
Lemma evaluate_RTF (p : Params) (v : Vars) :
  evaluate p = Ok v -> ~ PLF v == 0 /\ RTF v = py_min 1 (PLR v / PLF v).
Proof.
  unfold evaluate.
  destruct (Qle_bool (OAT p) (OAT_max_defrost p)); intros H.
  - unfold defrost_active in H. run_inv H.
    apply truediv_inv in E3 as [Hnz ->]. now split.
  - unfold defrost_inactive in H. run_inv H.
    apply truediv_inv in E0 as [Hnz ->]. now split.
Qed.

Lemma evaluate_RTF_nonneg (p : Params) (v : Vars) :
  evaluate p = Ok v -> 0 <= PLR v -> 0 < PLF v -> 0 <= RTF v.
Proof.
  intros H HPLR HPLF. apply evaluate_RTF in H as [_ ->].
  apply py_min_glb; [lra |]. now apply Qdiv_nonneg.
Qed.

End EvaluatorProperties.

Section EvaluatorClaims.

Context {psy : Psychrolib}.

(** C3: when the outdoor dry bulb equals the maximum defrost temperature
    the evaluator takes the defrost-active branch (the test is [<=]): the
    run is the run of that branch, so whenever it returns, the defrost
    load is bound and the else branch's capacity multiplier is not. *)
Theorem evaluate_at_threshold_is_active (p : Params) :
  OAT p == OAT_max_defrost p ->
  evaluate p = defrost_active p
  /\ forall v : Vars,
       evaluate p = Ok v ->
       Heating_capacity_multiplier v = None
       /\ exists q : Q, Q_defrost v = Some q.
Proof.
  intros Heq.
  assert (Hrun : evaluate p = defrost_active p)
    by (apply evaluate_active; rewrite Heq; apply Qle_refl).
  split; [exact Hrun |].
  intros v Hv. rewrite Hrun in Hv. now apply (defrost_active_bindings p).
Qed.

(** C4: for an outdoor dry bulb strictly above the maximum defrost
    temperature the evaluator runs the defrost-inactive branch; every run
    that returns has defrost power 0, both multipliers equal to 1 and
    total capacity [Q_total_rated * TotCapTempModFac(OAT) *
    TotCapFlowModFac(1)]; and the run does return unless one of its three
    divisors (total capacity, part-load factor, rated COP) is zero. *)
Theorem evaluate_above_threshold_is_inactive (p : Params) :
  OAT_max_defrost p < OAT p ->
  let Qt := Q_total_rated p * TotCapTempModFac (OAT p) * TotCapFlowModFac 1 in
  evaluate p = defrost_inactive p
  /\ (forall v : Vars,
        evaluate p = Ok v ->
        P_defrost v = 0
        /\ Input_Power_Multiplier v = 1
        /\ Heating_capacity_multiplier v = Some 1
        /\ Q_total v == Qt)
  /\ (~ Qt == 0 ->
      ~ PLF_curve (Delivered_Load p / (Qt * 60)) == 0 ->
      ~ COP_rated p == 0 ->
      exists v : Vars, evaluate p = Ok v).
Proof.
  intros Hlt Qt.
  pose proof (evaluate_inactive p Hlt) as Hrun.
  split; [exact Hrun |]. rewrite Hrun. split.
  - intros v Hv.
    apply (defrost_inactive_bindings p) in Hv
      as (Hd & Hpow & Hcap & _ & HQ & _).
    repeat split; try assumption.
    rewrite HQ. unfold Qt. ring.
  - apply defrost_inactive_returns.
Qed.

(** C2, at the operating point [overloaded] (outdoor air at 10 C, above
    the 5 C threshold, and a load of 1000000): the run returns from the
    defrost-inactive branch with a part-load ratio above 1, while its
    runtime fraction is 1. *)
Theorem defrost_inactive_PLR_exceeds_1 :
  exists v : Vars,
    evaluate overloaded = Ok v
    /\ Q_defrost v = None
    /\ 1 < PLR v
    /\ RTF v == 1.
Proof.
  eexists. split; [vm_compute; reflexivity |].
  cbn [Q_defrost PLR RTF]. repeat split.
Qed.

End EvaluatorClaims.

(** Outdoor air at 5 C against a maximum defrost temperature of 5 C. *)
Lemma evaluate_at_threshold_is_active_witness :
  OAT at_threshold == OAT_max_defrost at_threshold
  /\ evaluate (psy := winter_air) at_threshold
     = defrost_active (psy := winter_air) at_threshold.
Proof.
  assert (H : OAT at_threshold == OAT_max_defrost at_threshold)
    by reflexivity.
  split; [exact H |].
  exact (proj1 (evaluate_at_threshold_is_active (psy := winter_air)
                  at_threshold H)).
Defined.

(** Outdoor air at 10 C: the run returns, with no defrost power. *)
Lemma evaluate_above_threshold_is_inactive_witness :
  OAT_max_defrost mild_day < OAT mild_day
  /\ exists v : Vars,
       evaluate (psy := winter_air) mild_day = Ok v
       /\ P_defrost v = 0
       /\ Input_Power_Multiplier v = 1
       /\ Heating_capacity_multiplier v = Some 1.
Proof.
  assert (H : OAT_max_defrost mild_day < OAT mild_day) by reflexivity.
  split; [exact H |].
  destruct (evaluate_above_threshold_is_inactive (psy := winter_air)
              mild_day H) as (_ & Hvars & Hreturns).
  destruct Hreturns as [v Hv].
  - intros H0. vm_compute in H0. discriminate H0.
  - intros H0. vm_compute in H0. discriminate H0.
  - intros H0. vm_compute in H0. discriminate H0.
  - exists v. split; [exact Hv |].
    destruct (Hvars v Hv) as (Hd & Hpow & Hcap & _). auto.
Defined.

(** * Further properties of the code *)

(** ** Shape of the correction curves *)

Lemma Qpower_2 (x : Q) : x ^ 2 == x * x.
Proof. reflexivity. Qed.

Lemma Qpower_3 (x : Q) : x ^ 3 == x * x * x.
Proof. simpl. ring. Qed.

Lemma Qsquare_nonneg (x : Q) : 0 <= x * x.
Proof. nra. Qed.

(** The difference quotient of the capacity curve: a positive definite
    quadratic, completed to squares at [x + y = -85/3]. *)
Lemma TotCapTempModFac_slope (x y : Q) :
  0 < 0.027626 + 0.000148716 * (x + y)
      + 0.0000034992 * (x * x + x * y + y * y).
Proof.
  pose proof (Qsquare_nonneg (x - y)).
  pose proof (Qsquare_nonneg (x + y + (85 # 3))).
  lra.
Qed.

Lemma TotCapTempModFac_lt (x y : Q) :
  x < y -> TotCapTempModFac x < TotCapTempModFac y.
Proof.
  intros Hxy. unfold TotCapTempModFac. cbv iota beta.
  rewrite !Qpower_2, !Qpower_3.
  assert (0 < (y - x) * (0.027626 + 0.000148716 * (x + y)
                         + 0.0000034992 * (x * x + x * y + y * y)))
    by (apply Qmult_lt_0_compat; [lra | apply TotCapTempModFac_slope]).
  lra.
Qed.

(** The same for the EER curve, whose slope is negative everywhere. *)
Lemma EERTempModFac_slope (x y : Q) :
  0 < 0.0300438 - 0.00103745 * (x + y)
      + 0.000023328 * (x * x + x * y + y * y).
Proof.
  pose proof (Qsquare_nonneg (x - y)).
  pose proof (Qsquare_nonneg (x + y - 29)).
  pose proof (Qsquare_nonneg (x + y - 30)).
  lra.
Qed.

Lemma EERTempModFac_lt (x y : Q) :
  x < y -> EERTempModFac y < EERTempModFac x.
Proof.
  intros Hxy. unfold EERTempModFac. cbv iota beta.
  rewrite !Qpower_2, !Qpower_3.
  assert (0 < (y - x) * (0.0300438 - 0.00103745 * (x + y)
                         + 0.000023328 * (x * x + x * y + y * y)))
    by (apply Qmult_lt_0_compat; [lra | apply EERTempModFac_slope]).
  lra.
Qed.

Lemma TotCapTempModFac_pos (Tdb : Q) : -25 <= Tdb -> 0 < TotCapTempModFac Tdb.
Proof.
  intros H.
  apply Qlt_le_trans with (y := TotCapTempModFac (-25)); [reflexivity |].
  destruct (Qlt_le_dec (-25) Tdb) as [Hlt | Hge].
  - apply Qlt_le_weak. now apply TotCapTempModFac_lt.
  - assert (Heq : Tdb == -25) by lra.
    unfold TotCapTempModFac. cbv iota beta. rewrite Heq. apply Qle_refl.
Qed.

Lemma EERTempModFac_pos (Tdb : Q) : Tdb <= 40 -> 0 < EERTempModFac Tdb.
Proof.
  intros H.
  apply Qlt_le_trans with (y := EERTempModFac 40); [reflexivity |].
  destruct (Qlt_le_dec Tdb 40) as [Hlt | Hge].
  - apply Qlt_le_weak. now apply EERTempModFac_lt.
  - assert (Heq : Tdb == 40) by lra.
    unfold EERTempModFac. cbv iota beta. rewrite Heq. apply Qle_refl.
Qed.

Lemma EERFlowModFac_rated : EERFlowModFac 1 == 1.
Proof. reflexivity. Qed.

Lemma DefrostEIRTempModFac_one (Twbi Tdb : Q) :
  DefrostEIRTempModFac Twbi Tdb == 1.
Proof. unfold DefrostEIRTempModFac. cbv iota beta. ring. Qed.

(** The slopes, bounded away from zero. *)
Lemma TotCapTempModFac_gain (x y : Q) :
  x <= y -> TotCapTempModFac x + 0.025 * (y - x) <= TotCapTempModFac y.
Proof.
  intros Hxy. unfold TotCapTempModFac. cbv iota beta.
  rewrite !Qpower_2, !Qpower_3.
  assert (Hs : 0 <= 0.002626 + 0.000148716 * (x + y)
                    + 0.0000034992 * (x * x + x * y + y * y)).
  { pose proof (Qsquare_nonneg (x - y)).
    pose proof (Qsquare_nonneg (x + y + (85 # 3))).
    lra. }
  assert (0 <= (y - x) * (0.002626 + 0.000148716 * (x + y)
                          + 0.0000034992 * (x * x + x * y + y * y)))
    by (apply Qmult_le_0_compat; lra).
  lra.
Qed.

Lemma EERTempModFac_loss (x y : Q) :
  x <= y -> EERTempModFac y + 0.014 * (y - x) <= EERTempModFac x.
Proof.
  intros Hxy. unfold EERTempModFac. cbv iota beta.
  rewrite !Qpower_2, !Qpower_3.
  assert (Hs : 0 <= 0.0160438 - 0.00103745 * (x + y)
                    + 0.000023328 * (x * x + x * y + y * y)).
  { pose proof (Qsquare_nonneg (x - y)).
    pose proof (Qsquare_nonneg (x + y - 29.6)).
    pose proof (Qsquare_nonneg (x + y - 29.7)).
    lra. }
  assert (0 <= (y - x) * (0.0160438 - 0.00103745 * (x + y)
                          + 0.000023328 * (x * x + x * y + y * y)))
    by (apply Qmult_le_0_compat; lra).
  lra.
Qed.

(** X1: between -100 C and 100 C the total-capacity temperature
    modifier rises with the outdoor dry bulb by at least 0.025 per
    degree: for two temperatures at least a thousandth of a degree
    apart, the modifier at the higher one exceeds the modifier at the
    lower one by at least 0.025 times their difference. *)
Theorem TotCapTempModFac_increasing (Tdb1 Tdb2 : Q) :
  -100 <= Tdb1 -> Tdb1 + 0.001 <= Tdb2 -> Tdb2 <= 100 ->
  TotCapTempModFac Tdb1 + 0.025 * (Tdb2 - Tdb1) <= TotCapTempModFac Tdb2
  /\ TotCapTempModFac Tdb1 < TotCapTempModFac Tdb2.
Proof.
  intros _ Hgap _.
  assert (Hle : Tdb1 <= Tdb2) by lra.
  pose proof (TotCapTempModFac_gain Tdb1 Tdb2 Hle). split; lra.
Qed.

(** At -5 C and at the script's 2.7 C. *)
Lemma TotCapTempModFac_increasing_witness :
  TotCapTempModFac (-5) + 0.025 * (2.7 - -5) <= TotCapTempModFac 2.7
  /\ TotCapTempModFac (-5) < TotCapTempModFac 2.7.
Proof.
  apply (TotCapTempModFac_increasing (-5) 2.7);
    unfold Qle; vm_compute; discriminate.
Defined.

(** X2: between -100 C and 100 C the EER temperature modifier falls as
    the outdoor dry bulb rises, by at least 0.014 per degree: for two
    temperatures at least a thousandth of a degree apart, the modifier
    at the lower one exceeds the modifier at the higher one by at least
    0.014 times their difference. *)
Theorem EERTempModFac_decreasing (Tdb1 Tdb2 : Q) :
  -100 <= Tdb1 -> Tdb1 + 0.001 <= Tdb2 -> Tdb2 <= 100 ->
  EERTempModFac Tdb2 + 0.014 * (Tdb2 - Tdb1) <= EERTempModFac Tdb1
  /\ EERTempModFac Tdb2 < EERTempModFac Tdb1.
Proof.
  intros _ Hgap _.
  assert (Hle : Tdb1 <= Tdb2) by lra.
  pose proof (EERTempModFac_loss Tdb1 Tdb2 Hle). split; lra.
Qed.

Lemma EERTempModFac_decreasing_witness :
  EERTempModFac 2.7 + 0.014 * (2.7 - -5) <= EERTempModFac (-5)
  /\ EERTempModFac 2.7 < EERTempModFac (-5).
Proof.
  apply (EERTempModFac_decreasing (-5) 2.7);
    unfold Qle; vm_compute; discriminate.
Defined.

(** X3: from -25 C upwards the capacity modifier is positive, and up to
    40 C the EER modifier is positive: between -25 C and 40 C neither
    curve reaches zero or changes sign. *)
Theorem temperature_modifiers_positive (Tdb : Q) :
  -25 <= Tdb -> Tdb <= 40 ->
  0 < TotCapTempModFac Tdb /\ 0 < EERTempModFac Tdb.
Proof.
  intros Hlo Hhi. split;
    [now apply TotCapTempModFac_pos | now apply EERTempModFac_pos].
Qed.

Lemma temperature_modifiers_positive_witness :
  (-25 <= 2.7 /\ 2.7 <= 40)
  /\ 0 < TotCapTempModFac 2.7 /\ 0 < EERTempModFac 2.7.
Proof.
  assert (Hlo : -25 <= 2.7) by (unfold Qle; simpl; discriminate).
  assert (Hhi : 2.7 <= 40) by (unfold Qle; simpl; discriminate).
  split; [split; assumption |].
  exact (temperature_modifiers_positive 2.7 Hlo Hhi).
Defined.

(** ** The defrost model: errors, strategies, edge and trend *)

Lemma Qdiv_le_compat_l (a x y : Q) :
  0 <= a -> 0 < x -> x <= y -> a / y <= a / x.
Proof.
  intros Ha Hx Hxy.
  assert (Hy : 0 < y) by lra.
  apply Qle_shift_div_l; [assumption |].
  assert (E : a / y * x == a / y * y - a / y * (y - x)) by ring.
  assert (E2 : a / y * y == a) by (field; lra).
  assert (0 <= a / y) by (apply Qle_shift_div_l; lra).
  assert (0 <= a / y * (y - x)) by (apply Qmult_le_0_compat; lra).
  lra.
Qed.

Lemma tfrac_OnDemand_mono (x y : Q) :
  0 < x -> x <= y -> tfrac_OnDemand x <= tfrac_OnDemand y.
Proof.
  intros Hx Hxy. unfold tfrac_OnDemand.
  assert (Hy : 0 < y) by lra.
  pose proof (tfrac_OnDemand_denominator x Hx).
  pose proof (tfrac_OnDemand_denominator y Hy).
  apply Qdiv_le_compat_l; try lra.
  assert (0.01446 / y <= 0.01446 / x) by (apply Qdiv_le_compat_l; lra).
  lra.
Qed.

Lemma py_max_mono (a x y : Q) : x <= y -> py_max a x <= py_max a y.
Proof. unfold py_max. destruct (Qlt_le_dec a x), (Qlt_le_dec a y); lra. Qed.

Lemma OutdoorCoildw_floored (w ws : Q) :
  w - ws <= 1e-6 -> OutdoorCoildw w ws = 1e-6.
Proof.
  intros H. unfold OutdoorCoildw.
  destruct (py_max_cases 1e-6 (w - ws)) as [[Hlt _] | [_ E]]; [lra | exact E].
Qed.

Lemma tfrac_OnDemand_floor : tfrac_OnDemand 1e-6 == 1 # 14461.
Proof. reflexivity. Qed.

Section DefrostFurther.

Context {psy : Psychrolib}.

(** X4: [DefrostCalc] returns a triple exactly when both psychrolib
    calls answer, for every strategy string and time fraction; when one
    of them raises, [DefrostCalc] raises that psychrolib exception.  Its
    own two divisions never raise. *)
Theorem DefrostCalc_returns_iff_psychrolib (Tdbo Twbo : Q) (s : string)
    (tf : option Q) :
  match GetHumRatioFromTWetBulb Tdbo Twbo 98600,
        GetSatHumRatio (0.82 * Tdbo - 8.589) 98600 with
  | Some _, Some _ => exists r, DefrostCalc Tdbo Twbo s tf = Ok r
  | _, _ => DefrostCalc Tdbo Twbo s tf = Raise PsychrolibError
  end.
Proof.
  destruct (GetHumRatioFromTWetBulb Tdbo Twbo 98600) as [w |] eqn:Hw.
  - destruct (GetSatHumRatio (0.82 * Tdbo - 8.589) 98600) as [ws |] eqn:Hws.
    + destruct (string_dec s "OnDemand") as [-> | Hs]; eexists.
      * exact (DefrostCalc_OnDemand _ _ _ _ _ Hw Hws).
      * exact (DefrostCalc_Timed _ _ _ _ _ _ Hs Hw Hws).
    + unfold DefrostCalc. now rewrite Hw, Hws.
  - unfold DefrostCalc. now rewrite Hw.
Qed.

(** X5: the strategy is on demand only for the exact string "OnDemand";
    any other string, whatever its spelling, gives the result of
    "Timed". *)
Theorem DefrostCalc_other_strategy_is_Timed (Tdbo Twbo : Q) (s : string)
    (tf : option Q) :
  s <> "OnDemand"%string ->
  DefrostCalc Tdbo Twbo s tf = DefrostCalc Tdbo Twbo "Timed" tf.
Proof.
  intros Hs. unfold DefrostCalc.
  apply String.eqb_neq in Hs. rewrite Hs. reflexivity.
Qed.

(** X7: when the outdoor air is not more humid than saturated air at
    the coil (up to the floor, [w - ws <= 1e-6]), the differential is the
    floor itself: an on-demand call returns the time fraction 1/14461
    and the multipliers that go with it, whatever the temperatures. *)
Theorem DefrostCalc_OnDemand_dry_air (Tdbo Twbo : Q) (tf : option Q)
    (w ws : Q) :
  GetHumRatioFromTWetBulb Tdbo Twbo 98600 = Some w ->
  GetSatHumRatio (0.82 * Tdbo - 8.589) 98600 = Some ws ->
  w - ws <= 1e-6 ->
  exists cap pow tfrac : Q,
    DefrostCalc Tdbo Twbo "OnDemand" tf = Ok (cap, pow, tfrac)
    /\ tfrac == 1 # 14461
    /\ cap == 0.875 * (14460 # 14461)
    /\ pow == 0.954 * (14460 # 14461).
Proof.
  intros Hw Hws Hdry. do 3 eexists.
  split; [exact (DefrostCalc_OnDemand _ _ _ _ _ Hw Hws) |].
  rewrite (OutdoorCoildw_floored _ _ Hdry), tfrac_OnDemand_floor.
  repeat split; reflexivity.
Qed.

(** X8: for humidity differences up to 1 an on-demand result stays
    well inside its nominal ranges: the time fraction is between
    0.000069 and 0.986, the capacity multiplier between 0.012 and 0.875,
    and the power multiplier between 0.013 and 0.954. *)
Theorem DefrostCalc_OnDemand_bounds (Tdbo Twbo : Q) (tf : option Q)
    (w ws : Q) :
  GetHumRatioFromTWetBulb Tdbo Twbo 98600 = Some w ->
  GetSatHumRatio (0.82 * Tdbo - 8.589) 98600 = Some ws ->
  w - ws <= 1 ->
  exists cap pow tfrac : Q,
    DefrostCalc Tdbo Twbo "OnDemand" tf = Ok (cap, pow, tfrac)
    /\ (0.000069 <= tfrac /\ tfrac <= 0.986)
    /\ (0.012 <= cap /\ cap <= 0.875)
    /\ (0.013 <= pow /\ pow <= 0.954).
Proof.
  intros Hw Hws Hle. do 3 eexists.
  split; [exact (DefrostCalc_OnDemand _ _ _ _ _ Hw Hws) |].
  pose proof (OutdoorCoildw_pos w ws) as Hpos.
  assert (Hlo : tfrac_OnDemand 1e-6 <= tfrac_OnDemand (OutdoorCoildw w ws))
    by (apply tfrac_OnDemand_mono; [reflexivity | apply OutdoorCoildw_floor]).
  assert (Hdw : OutdoorCoildw w ws <= 1).
  { unfold OutdoorCoildw.
    destruct (py_max_cases 1e-6 (w - ws)) as [[_ ->] | [_ ->]];
      [exact Hle | unfold Qle; vm_compute; discriminate]. }
  assert (Hhi : tfrac_OnDemand (OutdoorCoildw w ws) <= tfrac_OnDemand 1)
    by (apply tfrac_OnDemand_mono; assumption).
  assert (H0 : 0.000069 <= tfrac_OnDemand 1e-6)
    by (unfold Qle; vm_compute; discriminate).
  assert (H1 : tfrac_OnDemand 1 <= 0.986)
    by (unfold Qle; vm_compute; discriminate).
  repeat split; lra.
Qed.


End DefrostFurther.

(** X6: more frost-driving humidity means more defrosting.  Of two
    on-demand calls, on any two providers and inputs, the one with the
    larger humidity difference [w - ws] returns the larger (or equal)
    time fraction and the smaller (or equal) multipliers. *)
Theorem DefrostCalc_OnDemand_monotone (psy1 psy2 : Psychrolib)
    (Tdbo1 Twbo1 Tdbo2 Twbo2 : Q) (tf1 tf2 : option Q)
    (w1 ws1 w2 ws2 : Q) :
  GetHumRatioFromTWetBulb (Psychrolib := psy1) Tdbo1 Twbo1 98600 = Some w1 ->
  GetSatHumRatio (Psychrolib := psy1) (0.82 * Tdbo1 - 8.589) 98600
  = Some ws1 ->
  GetHumRatioFromTWetBulb (Psychrolib := psy2) Tdbo2 Twbo2 98600 = Some w2 ->
  GetSatHumRatio (Psychrolib := psy2) (0.82 * Tdbo2 - 8.589) 98600
  = Some ws2 ->
  w1 - ws1 <= w2 - ws2 ->
  exists cap1 pow1 tfrac1 cap2 pow2 tfrac2 : Q,
    DefrostCalc (psy := psy1) Tdbo1 Twbo1 "OnDemand" tf1
    = Ok (cap1, pow1, tfrac1)
    /\ DefrostCalc (psy := psy2) Tdbo2 Twbo2 "OnDemand" tf2
       = Ok (cap2, pow2, tfrac2)
    /\ tfrac1 <= tfrac2 /\ cap2 <= cap1 /\ pow2 <= pow1.
Proof.
  intros Hw1 Hws1 Hw2 Hws2 Hle. do 6 eexists.
  split; [exact (DefrostCalc_OnDemand (psy := psy1) _ _ _ _ _ Hw1 Hws1) |].
  split; [exact (DefrostCalc_OnDemand (psy := psy2) _ _ _ _ _ Hw2 Hws2) |].
  assert (Ht : tfrac_OnDemand (OutdoorCoildw w1 ws1)
               <= tfrac_OnDemand (OutdoorCoildw w2 ws2)).
  { apply tfrac_OnDemand_mono; [apply OutdoorCoildw_pos |].
    now apply py_max_mono. }
  repeat split; lra.
Qed.

(** At the script's operating point, with a misspelt strategy. *)
Lemma DefrostCalc_other_strategy_is_Timed_witness :
  DefrostCalc (psy := winter_air) 2.7 1.332824959 "ondemand" None
  = DefrostCalc (psy := winter_air) 2.7 1.332824959 "Timed" None.
Proof.
  apply (DefrostCalc_other_strategy_is_Timed (psy := winter_air)).
  discriminate.
Defined.

(** Winter air against humid air. *)
Lemma DefrostCalc_OnDemand_monotone_witness :
  exists cap1 pow1 tfrac1 cap2 pow2 tfrac2 : Q,
    DefrostCalc (psy := winter_air) 2.7 1.332824959 "OnDemand" None
    = Ok (cap1, pow1, tfrac1)
    /\ DefrostCalc (psy := humid_air) 25 25 "OnDemand" None
       = Ok (cap2, pow2, tfrac2)
    /\ tfrac1 <= tfrac2 /\ cap2 <= cap1 /\ pow2 <= pow1.
Proof.
  apply (DefrostCalc_OnDemand_monotone winter_air humid_air
           2.7 1.332824959 25 25 None None
           0.0037186 0.0022599 0.0207 0.0089);
    try reflexivity.
  unfold Qle. simpl. discriminate.
Defined.

(** Dry air at the script's temperatures. *)
Lemma DefrostCalc_OnDemand_dry_air_witness :
  exists cap pow tfrac : Q,
    DefrostCalc (psy := dry_air) 2.7 1.332824959 "OnDemand" None
    = Ok (cap, pow, tfrac)
    /\ tfrac == 1 # 14461
    /\ cap == 0.875 * (14460 # 14461)
    /\ pow == 0.954 * (14460 # 14461).
Proof.
  apply (DefrostCalc_OnDemand_dry_air (psy := dry_air)
           2.7 1.332824959 None 0.0015 0.0022599);
    try reflexivity.
  unfold Qle. simpl. discriminate.
Defined.

(** The on-demand result at the script's operating point. *)
Lemma DefrostCalc_OnDemand_bounds_witness :
  exists cap pow tfrac : Q,
    DefrostCalc (psy := winter_air) 2.7 1.332824959 "OnDemand" None
    = Ok (cap, pow, tfrac)
    /\ (0.000069 <= tfrac /\ tfrac <= 0.986)
    /\ (0.012 <= cap /\ cap <= 0.875)
    /\ (0.013 <= pow /\ pow <= 0.954).
Proof.
  apply (DefrostCalc_OnDemand_bounds (psy := winter_air)
           2.7 1.332824959 None 0.0037186 0.0022599);
    try reflexivity.
  unfold Qle. vm_compute. discriminate.
Defined.


(** ** The evaluator: errors and what its result depends on *)

Section EvaluatorFurther.

Context {psy : Psychrolib}.

Lemma evaluate_PLF (p : Params) (v : Vars) :
  evaluate p = Ok v -> PLF v = PLF_curve (PLR v).
Proof.
  unfold evaluate.
  destruct (Qle_bool (OAT p) (OAT_max_defrost p)); intros H.
  - unfold defrost_active in H. run_inv H. reflexivity.
  - unfold defrost_inactive in H. run_inv H. reflexivity.
Qed.

(** The else branch raises nothing but [ZeroDivisionError]. *)
Lemma defrost_inactive_raises (p : Params) (e : exn) :
  defrost_inactive p = Raise e -> e = ZeroDivisionError.
Proof.
  unfold defrost_inactive. cbv zeta. unfold truediv.
  repeat (match goal with
          | |- context [Qeq_bool ?y 0] => destruct (Qeq_bool y 0)
          end; cbn [bind]);
    intros H; now inversion H.
Qed.

(** When the else branch returns, its three divisors were not zero. *)
Lemma defrost_inactive_divisors (p : Params) (v : Vars) :
  let Qt := Q_total_rated p * TotCapTempModFac (OAT p) * TotCapFlowModFac 1 in
  defrost_inactive p = Ok v ->
  ~ Qt == 0
  /\ ~ PLF_curve (Delivered_Load p / (Qt * 60)) == 0
  /\ ~ COP_rated p == 0.
Proof.
  intros Qt H. unfold defrost_inactive in H. cbv zeta in H. fold Qt in H.
  repeat step_bind H.
  apply truediv_inv in E as [HQ ->]. apply truediv_inv in E0 as [HP _].
  apply truediv_inv in E1 as [HC _].
  assert (H1 : Qt * 1 == Qt) by ring.
  repeat split.
  - intros H0. apply HQ. rewrite H1, H0. reflexivity.
  - intros H0. apply HP. rewrite <- H0. unfold PLF_curve. now rewrite H1.
  - exact HC.
Qed.

(** X10: at or below the maximum defrost temperature psychrolib is
    consulted before anything else: if one of its two calls raises, the
    evaluation raises that exception, whatever the load, the rated
    capacity and the rated COP (zero included). *)
Theorem evaluate_psychrolib_failure (p : Params) :
  OAT p <= OAT_max_defrost p ->
  GetHumRatioFromTWetBulb (OAT p) (Outdoor_WBT p) 98600 = None
  \/ GetSatHumRatio (0.82 * OAT p - 8.589) 98600 = None ->
  evaluate p = Raise PsychrolibError.
Proof.
  intros Hle Hfail. rewrite (evaluate_active p Hle).
  unfold defrost_active. cbv zeta.
  pose proof (DefrostCalc_psychrolib_raises (OAT p) (Outdoor_WBT p)
                "OnDemand" None Hfail) as ->.
  reflexivity.
Qed.

End EvaluatorFurther.

(** With a psychrolib that raises, and a rated COP that plays no part. *)
Lemma evaluate_psychrolib_failure_witness :
  evaluate (psy := broken_psychrolib) reference = Raise PsychrolibError.
Proof.
  apply (evaluate_psychrolib_failure (psy := broken_psychrolib) reference).
  - unfold Qle. simpl. discriminate.
  - right. reflexivity.
Defined.

(** X11: above the maximum defrost temperature the evaluation uses
    neither psychrolib nor the two wet-bulb temperatures: with another
    provider and other wet bulbs it gives the same result, or raises the
    same exception. *)
Theorem evaluate_inactive_ignores_humidity (psy1 psy2 : Psychrolib)
    (p : Params) (outdoor indoor : Q) :
  OAT_max_defrost p < OAT p ->
  evaluate (psy := psy1) p
  = evaluate (psy := psy2) (set_wet_bulbs p outdoor indoor).
Proof.
  intros Hlt.
  rewrite (evaluate_inactive (psy := psy1) p Hlt).
  rewrite (evaluate_inactive (psy := psy2) (set_wet_bulbs p outdoor indoor))
    by exact Hlt.
  reflexivity.
Qed.

Lemma evaluate_inactive_ignores_humidity_witness :
  evaluate (psy := winter_air) mild_day
  = evaluate (psy := broken_psychrolib) (set_wet_bulbs mild_day 9 15).
Proof.
  apply (evaluate_inactive_ignores_humidity winter_air broken_psychrolib
           mild_day 9 15).
  reflexivity.
Defined.

Section EvaluatorDependence.

Context {psy : Psychrolib}.

(** X12: the indoor wet bulb has no effect on the evaluation.  With
    another indoor wet bulb the run returns in the same cases, with the
    same heating power, capacity, ratios and fractions and an equal
    defrost power, and raises the same exception otherwise. *)
Theorem evaluate_ignores_Indoor_WBT (p : Params) (t : Q) :
  match evaluate p, evaluate (set_Indoor_WBT p t) with
  | Ok v, Ok v' =>
      P_heating v' = P_heating v /\ P_defrost v' == P_defrost v
      /\ Q_total v' = Q_total v /\ PLR v' = PLR v /\ PLF v' = PLF v
      /\ RTF v' = RTF v
      /\ Input_Power_Multiplier v' = Input_Power_Multiplier v
  | Raise e, Raise e' => e = e'
  | _, _ => False
  end.
Proof.
  unfold evaluate. cbn [set_Indoor_WBT OAT OAT_max_defrost].
  destruct (Qle_bool (OAT p) (OAT_max_defrost p)).
  - unfold defrost_active.
    cbn [set_Indoor_WBT OAT Outdoor_WBT Indoor_WBT Delivered_Load
         Q_total_rated COP_rated].
    cbv zeta.
    repeat (match goal with
            | |- context [bind ?m _] => destruct m; cbn [bind]
            end);
      try reflexivity.
    cbn [Input_Power_Multiplier Q_total PLR PLF RTF P_defrost P_heating].
    repeat split.
    rewrite !DefrostEIRTempModFac_one. reflexivity.
  - change (defrost_inactive (set_Indoor_WBT p t)) with (defrost_inactive p).
    destruct (defrost_inactive p); repeat split; reflexivity.
Qed.

(** X13: a zero rating stops the evaluation.  Above the maximum
    defrost temperature, for outdoor air between -100 C and 100 C, a
    rated capacity of 0 or a rated COP of 0 makes the evaluation raise
    [ZeroDivisionError]. *)
Theorem evaluate_inactive_zero_rating (p : Params) :
  OAT_max_defrost p < OAT p ->
  -100 <= OAT p -> OAT p <= 100 ->
  Q_total_rated p == 0 \/ COP_rated p == 0 ->
  evaluate p = Raise ZeroDivisionError.
Proof.
  intros Hlt _ _ Hzero. rewrite (evaluate_inactive p Hlt).
  destruct (defrost_inactive p) as [v | e] eqn:Hrun.
  - exfalso.
    destruct (defrost_inactive_divisors p v Hrun) as (HQ & _ & HC).
    destruct Hzero as [H0 | H0]; [| exact (HC H0)].
    apply HQ. rewrite H0. ring.
  - now rewrite (defrost_inactive_raises p e Hrun).
Qed.

(** X14: in both branches the runtime fraction saturates exactly when
    the part-load ratio reaches 1.  For a returned state with
    [PLR >= 0]: if [PLR >= 1] then [RTF == 1], and if [PLR < 1] then
    [PLR <= RTF < 1]. *)
Theorem evaluate_RTF_saturation (p : Params) (v : Vars) :
  evaluate p = Ok v ->
  0 <= PLR v ->
  (1 <= PLR v -> RTF v == 1)
  /\ (PLR v < 1 -> PLR v <= RTF v /\ RTF v < 1).
Proof.
  intros Hv Hnonneg.
  pose proof (evaluate_PLF p v Hv) as HPLF.
  apply evaluate_RTF in Hv as [_ ->]. rewrite HPLF.
  unfold PLF_curve. set (x := PLR v) in *.
  assert (Hpos : 0 < 0.85 + 0.15 * x) by lra.
  split.
  - intros Hge.
    assert (1 <= x / (0.85 + 0.15 * x)) by (apply Qle_shift_div_l; lra).
    unfold py_min. destruct (Qlt_le_dec (x / (0.85 + 0.15 * x)) 1); lra.
  - intros Hlt.
    assert (x / (0.85 + 0.15 * x) < 1) by (apply Qlt_shift_div_r; lra).
    assert (x <= x / (0.85 + 0.15 * x)) by (apply Qle_shift_div_l; nra).
    unfold py_min. destruct (Qlt_le_dec (x / (0.85 + 0.15 * x)) 1); lra.
Qed.

End EvaluatorDependence.

(** The script's own operating point: a part load, below saturation. *)
Lemma evaluate_RTF_saturation_witness :
  exists v : Vars,
    evaluate (psy := winter_air) reference = Ok v
    /\ PLR v <= RTF v /\ RTF v < 1.
Proof.
  eexists. split; [vm_compute; reflexivity |].
  refine (proj2 (evaluate_RTF_saturation (psy := winter_air)
                   reference _ _ _) _).
  - vm_compute. reflexivity.
  - unfold Qle. simpl. discriminate.
  - reflexivity.
Defined.

(** Outdoor air at 10 C and a rated COP of 0. *)
Lemma evaluate_inactive_zero_rating_witness :
  evaluate (psy := winter_air) zero_COP = Raise ZeroDivisionError.
Proof.
  apply (evaluate_inactive_zero_rating (psy := winter_air) zero_COP).
  - reflexivity.
  - unfold Qle. vm_compute. discriminate.
  - unfold Qle. vm_compute. discriminate.
  - right. reflexivity.
Defined.

(** ** The evaluator inside its operating envelope *)

Section EvaluatorEnvelope.

Context {psy : Psychrolib}.

(** The then branch, run forward from the defrost result. *)
Lemma defrost_active_run (p : Params) (cap pow tfrac : Q) :
  DefrostCalc (OAT p) (Outdoor_WBT p) "OnDemand" None
  = Ok (cap, pow, tfrac) ->
  let Qt :=
    Q_total_rated p * TotCapTempModFac (OAT p) * TotCapFlowModFac 1 * cap in
  let k := Q_total_rated p / 1.01667 in
  let Qd := 0.01 * tfrac * (7.222 - OAT p) * k in
  let plr := py_min 1.0 (Delivered_Load p / (Qt * 60) + Qd / Qt) in
  ~ Qt == 0 -> ~ PLF_curve plr == 0 -> ~ COP_rated p == 0 ->
  exists v : Vars,
    defrost_active p = Ok v
    /\ Input_Power_Multiplier v = pow
    /\ Q_total v = Qt
    /\ Q_defrost v = Some Qd
    /\ PLR v = plr
    /\ PLF v = PLF_curve plr
    /\ RTF v = py_min 1 (plr / PLF_curve plr)
    /\ P_defrost v
       = DefrostEIRTempModFac (Indoor_WBT p) (OAT p) * k * tfrac * RTF v
    /\ P_heating v
       = 1 / COP_rated p * Qt * EERTempModFac (OAT p) * EERFlowModFac 1
         * pow * RTF v.
Proof.
  intros HD Qt k Qd plr HQt HPLF HCOP.
  unfold defrost_active. cbv zeta. rewrite HD. cbn [bind fst snd].
  rewrite (truediv_ok (Q_total_rated p) 1.01667)
    by (intros H0; vm_compute in H0; discriminate H0).
  cbn [bind]. fold k. fold Qt. fold Qd.
  rewrite (truediv_ok (Delivered_Load p) (Qt * 60)).
  2:{ intros H0. apply HQt.
      apply Qmult_integral in H0 as [H0 | H0]; [exact H0 | discriminate H0]. }
  cbn [bind]. rewrite (truediv_ok Qd Qt) by exact HQt.
  cbn [bind]. fold plr.
  rewrite (truediv_ok plr (PLF_curve plr)) by exact HPLF.
  cbn [bind]. rewrite (truediv_ok 1 (COP_rated p)) by exact HCOP.
  cbn [bind]. eexists. split; [reflexivity |].
  cbn [Input_Power_Multiplier Q_total Q_defrost PLR PLF RTF P_defrost
       P_heating].
  repeat split.
Qed.

Lemma Qmult_pos (x y : Q) : 0 < x -> 0 < y -> 0 < x * y.
Proof. apply Qmult_lt_0_compat. Qed.

Lemma Qmult_nonneg (x y : Q) : 0 <= x -> 0 <= y -> 0 <= x * y.
Proof. apply Qmult_le_0_compat. Qed.

(** The runtime fraction of a non-negative part-load ratio. *)
Lemma RTF_range (plr : Q) :
  0 <= plr ->
  0.85 <= PLF_curve plr
  /\ 0 <= py_min 1 (plr / PLF_curve plr)
  /\ py_min 1 (plr / PLF_curve plr) <= 1.
Proof.
  intros H. unfold PLF_curve. split; [lra |]. split.
  - apply py_min_glb; [lra |]. apply Qdiv_nonneg; lra.
  - apply py_min_l.
Qed.

Lemma defrost_inactive_P_heating (p : Params) (v : Vars) :
  defrost_inactive p = Ok v ->
  P_heating v
  = 1 / COP_rated p * Q_total v * EERTempModFac (OAT p) * EERFlowModFac 1
    * 1 * RTF v.
Proof.
  intros H. unfold defrost_inactive in H. run_inv H.
  apply truediv_inv in E1 as [_ ->]. reflexivity.
Qed.

Lemma defrost_inactive_sane (p : Params) :
  in_envelope p ->
  exists v : Vars, defrost_inactive p = Ok v /\ sane p v.
Proof.
  intros ((Hlo & Hhi) & _ & HL & HQ & HC).
  pose proof (TotCapTempModFac_pos _ Hlo) as HT.
  pose proof (EERTempModFac_pos _ Hhi) as HE.
  set (Qt := Q_total_rated p * TotCapTempModFac (OAT p) * TotCapFlowModFac 1).
  assert (HQt : 0 < Qt).
  { unfold Qt. rewrite TotCapFlowModFac_rated.
    apply Qmult_pos; [apply Qmult_pos; assumption | reflexivity]. }
  assert (Hplr : 0 <= Delivered_Load p / (Qt * 60))
    by (apply Qdiv_nonneg; lra).
  destruct (defrost_inactive_returns p) as [v Hv]; fold Qt.
  - lra.
  - unfold PLF_curve. lra.
  - lra.
  - exists v. split; [exact Hv |].
    pose proof (defrost_inactive_P_heating p v Hv) as HPh.
    apply defrost_inactive_bindings in Hv
      as (Hd & Hpow & _ & _ & HQv & HPLR & HPLF & HRTF).
    fold Qt in HQv.
    assert (HQ1 : Qt * 1 == Qt) by ring.
    assert (HQv' : 0 < Q_total v) by (rewrite HQv, HQ1; exact HQt).
    assert (HPLR' : 0 <= PLR v)
      by (rewrite HPLR; apply Qdiv_nonneg; lra).
    pose proof (RTF_range _ HPLR') as (H1 & H2 & H3).
    rewrite <- HPLF, <- HRTF in *.
    unfold sane. repeat split; try assumption.
    + rewrite Hd. apply Qle_refl.
    + rewrite Hd. apply Qdiv_nonneg; [lra | reflexivity].
    + rewrite HPh.
      Qnonneg.
Qed.

(** An on-demand triple, read back. *)
Lemma DefrostCalc_OnDemand_inv (Tdbo Twbo : Q) (tf : option Q)
    (cap pow tfrac : Q) :
  DefrostCalc Tdbo Twbo "OnDemand" tf = Ok (cap, pow, tfrac) ->
  (0 < tfrac /\ tfrac < 1)
  /\ cap = 0.875 * (1 - tfrac) /\ pow = 0.954 * (1 - tfrac).
Proof.
  intros Hrun.
  destruct (GetHumRatioFromTWetBulb Tdbo Twbo 98600) as [w |] eqn:Hw.
  2:{ unfold DefrostCalc in Hrun. now rewrite Hw in Hrun. }
  destruct (GetSatHumRatio (0.82 * Tdbo - 8.589) 98600) as [ws |] eqn:Hws.
  2:{ unfold DefrostCalc in Hrun. now rewrite Hw, Hws in Hrun. }
  rewrite (DefrostCalc_OnDemand _ _ _ _ _ Hw Hws) in Hrun.
  injection Hrun as <- <- <-.
  split; [| split; reflexivity].
  apply tfrac_OnDemand_range, OutdoorCoildw_pos.
Qed.

(** What the then branch has bound from the defrost result. *)
Lemma defrost_active_inv (p : Params) (v : Vars) :
  defrost_active p = Ok v ->
  exists cap pow tfrac : Q,
    DefrostCalc (OAT p) (Outdoor_WBT p) "OnDemand" None
    = Ok (cap, pow, tfrac)
    /\ Input_Power_Multiplier v = pow
    /\ Q_total v
       = Q_total_rated p * TotCapTempModFac (OAT p) * TotCapFlowModFac 1
         * cap.
Proof.
  intros H. unfold defrost_active in H. cbv zeta in H.
  destruct (DefrostCalc (OAT p) (Outdoor_WBT p) "OnDemand" None)
    as [[[cap pow] tfrac] | e] eqn:HD; cbn [bind fst snd] in H;
    [| discriminate H].
  exists cap, pow, tfrac. split; [reflexivity |].
  repeat step_bind H. injection H as <-. split; reflexivity.
Qed.

Lemma defrost_active_sane (p : Params) (r : Q * Q * Q) :
  in_envelope p ->
  OAT p <= OAT_max_defrost p ->
  DefrostCalc (OAT p) (Outdoor_WBT p) "OnDemand" None = Ok r ->
  exists v : Vars, defrost_active p = Ok v /\ sane p v.
Proof.
  intros ((Hlo & Hhi) & Hmax & HL & HQ & HC) Hact HD.
  destruct r as [[cap pow] tfrac].
  pose proof (DefrostCalc_OnDemand_inv _ _ _ _ _ _ HD)
    as ((Ht0 & Ht1) & Hcap & Hpow).
  assert (Hcap0 : 0 < cap) by (rewrite Hcap; lra).
  assert (Hpow0 : 0 <= pow) by (rewrite Hpow; lra).
  clear Hcap Hpow.
  pose proof (TotCapTempModFac_pos _ Hlo) as HT.
  pose proof (EERTempModFac_pos _ Hhi) as HE.
  pose proof (defrost_active_run p cap pow tfrac HD) as Hrun.
  cbv zeta in Hrun.
  set (Qt := Q_total_rated p * TotCapTempModFac (OAT p) * TotCapFlowModFac 1
             * cap) in *.
  set (k := Q_total_rated p / 1.01667) in *.
  set (Qd := 0.01 * tfrac * (7.222 - OAT p) * k) in *.
  set (plr := py_min 1.0 (Delivered_Load p / (Qt * 60) + Qd / Qt)) in *.
  assert (HQt : 0 < Qt).
  { unfold Qt. rewrite TotCapFlowModFac_rated.
    repeat apply Qmult_pos; try assumption. reflexivity. }
  assert (Hk : 0 < k) by (apply Qdiv_pos; [exact HQ | reflexivity]).
  assert (HQd : 0 <= Qd).
  { unfold Qd.
    apply Qmult_nonneg; [apply Qmult_nonneg; [apply Qmult_nonneg |] |];
      lra. }
  assert (Hplr : 0 <= plr).
  { unfold plr. apply py_min_glb; [lra |].
    assert (0 <= Delivered_Load p / (Qt * 60)) by (apply Qdiv_nonneg; lra).
    assert (0 <= Qd / Qt) by (apply Qdiv_nonneg; lra).
    lra. }
  pose proof (RTF_range _ Hplr) as (H1 & H2 & H3).
  destruct Hrun as (v & Hv & _ & HQv & _ & HPLR & HPLF & HRTF & HPd & HPh);
    [lra | lra | lra |].
  exists v. split; [exact Hv |].
  rewrite <- HRTF in H2, H3.
  unfold sane. rewrite HQv, HPLR, HPLF.
  split; [exact HQt |]. split; [exact Hplr |]. split; [exact H1 |].
  split; [split; assumption |].
  assert (HtR : 0 <= tfrac * RTF v) by (apply Qmult_nonneg; lra).
  assert (HtR1 : tfrac * RTF v <= 1) by nra.
  assert (HPd' : P_defrost v == k * (tfrac * RTF v))
    by (rewrite HPd, DefrostEIRTempModFac_one; ring).
  split; [split |].
  - rewrite HPd'. apply Qmult_nonneg; lra.
  - rewrite HPd'. fold k. nra.
  - rewrite HPh.
    assert (0 <= RTF v) by assumption.
    assert (0 < Qt) by assumption.
    Qnonneg.
Qed.

End EvaluatorEnvelope.

Section EnvelopeClaims.

Context {psy : Psychrolib}.

(** X15: inside the envelope (outdoor air from -25 C to 40 C, maximum
    defrost temperature at most 7.222 C, non-negative load, positive
    rated capacity and COP), and with psychrolib answering when the
    defrost branch needs it, the evaluation returns, no division fails,
    and the state is sane: positive total capacity, [PLR >= 0],
    [PLF >= 0.85], [0 <= RTF <= 1], defrost power between 0 and
    [Q_total_rated / 1.01667], and non-negative heating power. *)
Theorem evaluate_in_envelope (p : Params) :
  in_envelope p ->
  (OAT p <= OAT_max_defrost p ->
   GetHumRatioFromTWetBulb (OAT p) (Outdoor_WBT p) 98600 <> None
   /\ GetSatHumRatio (0.82 * OAT p - 8.589) 98600 <> None) ->
  exists v : Vars, evaluate p = Ok v /\ sane p v.
Proof.
  intros Henv Hpsy.
  destruct (Qlt_le_dec (OAT_max_defrost p) (OAT p)) as [Hlt | Hle].
  - rewrite (evaluate_inactive p Hlt). now apply defrost_inactive_sane.
  - rewrite (evaluate_active p Hle).
    destruct (Hpsy Hle) as [Hw Hws].
    destruct (GetHumRatioFromTWetBulb (OAT p) (Outdoor_WBT p) 98600)
      as [w |] eqn:Ew; [| now elim Hw].
    destruct (GetSatHumRatio (0.82 * OAT p - 8.589) 98600)
      as [ws |] eqn:Ews; [| now elim Hws].
    eapply defrost_active_sane; [exact Henv | exact Hle |].
    exact (DefrostCalc_OnDemand _ _ None w ws Ew Ews).
Qed.

(** X16: defrost derates the coil.  Whenever the defrost-active branch
    returns and the rated capacity at the outdoor temperature,
    [Q_total_rated * TotCapTempModFac(OAT)], is positive, the total
    capacity is positive and below 87.5 percent of it, and the
    input-power multiplier is positive and below 0.954. *)
Theorem defrost_active_derates (p : Params) (v : Vars) :
  OAT p <= OAT_max_defrost p ->
  0 < Q_total_rated p * TotCapTempModFac (OAT p) ->
  evaluate p = Ok v ->
  (0 < Q_total v
   /\ Q_total v < 0.875 * (Q_total_rated p * TotCapTempModFac (OAT p)))
  /\ (0 < Input_Power_Multiplier v /\ Input_Power_Multiplier v < 0.954).
Proof.
  intros Hle Hpos Hv. rewrite (evaluate_active p Hle) in Hv.
  apply defrost_active_inv in Hv as (cap & pow & tfrac & HD & -> & ->).
  apply DefrostCalc_OnDemand_inv in HD as ((Ht0 & Ht1) & -> & ->).
  rewrite TotCapFlowModFac_rated.
  set (c := Q_total_rated p * TotCapTempModFac (OAT p)) in *.
  split; [| split; lra].
  assert (0 < c * (0.875 * (1 - tfrac))) by (apply Qmult_pos; lra).
  assert (0 < c * tfrac) by (apply Qmult_pos; lra).
  split; lra.
Qed.

End EnvelopeClaims.

(** The script's own operating point lies in the envelope. *)
Lemma evaluate_in_envelope_witness :
  exists v : Vars,
    evaluate (psy := winter_air) reference = Ok v /\ sane reference v.
Proof.
  apply (evaluate_in_envelope (psy := winter_air) reference).
  - unfold in_envelope. repeat split; try reflexivity;
      unfold Qle; simpl; discriminate.
  - intros _. split; discriminate.
Defined.

(** At the script's operating point the coil is derated. *)
Lemma defrost_active_derates_witness :
  exists v : Vars,
    evaluate (psy := winter_air) reference = Ok v
    /\ Q_total v
       < 0.875 * (Q_total_rated reference * TotCapTempModFac (OAT reference)).
Proof.
  eexists. split; [vm_compute; reflexivity |].
  refine (proj2 (proj1 (defrost_active_derates (psy := winter_air)
                          reference _ _ _ _))).
  - unfold Qle. simpl. discriminate.
  - reflexivity.
  - vm_compute. reflexivity.
Defined.

(** ** Shape of the flow curves *)

Lemma EERFlowModFac_lower (FF : Q) : 0.46 < EERFlowModFac FF.
Proof.
  unfold EERFlowModFac. cbv iota beta. rewrite Qpower_2, Qpower_3.
  pose proof (Qsquare_nonneg (FF - (271 # 64))). lra.
Qed.

(** X17: at the rated flow fraction 1, the one the evaluator uses,
    both flow modifiers are 1.  Between flow fractions 0 and 4, for two
    fractions at least a thousandth apart, the capacity flow modifier
    rises by at least 0.15 times their difference, the EER flow modifier
    falls by at least 0.02 times their difference, and the EER flow
    modifier stays above 0.46. *)
Theorem flow_modifiers_shape (FF1 FF2 : Q) :
  (TotCapFlowModFac 1 == 1 /\ EERFlowModFac 1 == 1)
  /\ (0 <= FF1 -> FF1 + 0.001 <= FF2 -> FF2 <= 4 ->
      TotCapFlowModFac FF1 + 0.15 * (FF2 - FF1) <= TotCapFlowModFac FF2
      /\ EERFlowModFac FF2 + 0.02 * (FF2 - FF1) <= EERFlowModFac FF1
      /\ 0.46 < EERFlowModFac FF1 /\ 0.46 < EERFlowModFac FF2).
Proof.
  split; [split; reflexivity |].
  intros Hlo Hgap Hhi.
  split; [| split; [| split; apply EERFlowModFac_lower]].
  - unfold TotCapFlowModFac. cbv iota beta. rewrite !Qpower_2, !Qpower_3.
    lra.
  - unfold EERFlowModFac. cbv iota beta. rewrite !Qpower_2, !Qpower_3.
    assert (0 <= (FF2 - FF1) * (0.4136 - 0.0512 * (FF1 + FF2)))
      by (apply Qmult_le_0_compat; lra).
    lra.
Qed.

(** Half flow against rated flow. *)
Lemma flow_modifiers_shape_witness :
  TotCapFlowModFac 0.5 + 0.15 * (1 - 0.5) <= TotCapFlowModFac 1
  /\ EERFlowModFac 1 + 0.02 * (1 - 0.5) <= EERFlowModFac 0.5
  /\ 0.46 < EERFlowModFac 0.5 /\ 0.46 < EERFlowModFac 1.
Proof.
  apply (proj2 (flow_modifiers_shape 0.5 1));
    unfold Qle; vm_compute; discriminate.
Defined.

(** ** Where binary64 leaves the exact model *)

(** At a differential of 1 the doubles agree with the exact model: both
    multipliers are positive and the time fraction is below 1. *)
Example DefrostCalc_OnDemand_binary64_at_1 :
  let '(cap, pow, tfrac) := DefrostCalc_OnDemand_binary64 1 in
  PrimFloat.ltb 0 cap = true /\ PrimFloat.ltb 0 pow = true
  /\ PrimFloat.ltb tfrac 1 = true.
Proof. vm_compute. repeat split. Qed.

(** At 1.4e14 they do not: [1 + 0.01446 / dw] rounds to 1, the time
    fraction is exactly 1 and both multipliers are exactly 0, where the
    exact model has them positive. *)
Example DefrostCalc_OnDemand_binary64_at_1e14 :
  DefrostCalc_OnDemand_binary64 1.4e14 = (0, 0, 1)%float.
Proof. vm_compute. reflexivity. Qed.
